(** * CalculatingCalibration.py: candidate generation, frequency scoring,
      extremum selection and report assembly

    A shallow embedding of [src/CalculatingCalibration.py] and the proofs
    of the properties its specification states about it.

    Python integers are unbounded, so they are [Z].  A Python list is a
    [list]; a 5-tuple or 2-tuple candidate is the list the code builds
    ([[p1, p2, p3, p4, p5]], [[p6, p7]]).  A [collections.Counter] is a
    finite map [gmap Z Z] from observed value to occurrence count.  Code
    that can raise returns [result A], a sum whose left side is the
    exception. *)

From Stdlib Require Import ZArith Lia.
From stdpp Require Import base tactics option list list_numbers gmap strings pretty sorting.

Local Open Scope Z_scope.

(** ** Exceptions *)

(** The exceptions that statements of the program can raise.
    [ValueError] is raised by numpy's argmax and argmin on an empty
    sequence and by a failed sequence unpacking; [IndexError] by a list
    subscript out of range.  [ConfigurationError] is the error class of
    the specification's taxonomy; the program has no [raise] statement, so
    nothing below produces it. *)
Inductive exn : Type :=
| ValueError (msg : string)
| IndexError (msg : string)
| ConfigurationError.

Definition result (A : Type) : Type := (exn + A)%type.

Definition ret {A} (x : A) : result A := inr x.

Definition raise {A} (e : exn) : result A := inl e.

Definition bind {A B} (m : result A) (k : A → result B) : result B :=
  match m with
  | inl e => inl e
  | inr x => k x
  end.

Notation "'do' x <- m ;; k" := (bind m (fun x => k))
  (at level 10, x name, m at level 99, k at level 200).
Notation "'do' ' pat <- m ;; k" := (bind m (fun pat => k))
  (at level 10, pat pattern, m at level 99, k at level 200).

(** A list comprehension [[f(x) for x in l]] whose body can raise: the
    elements are evaluated left to right and the first exception leaves
    the comprehension. *)
Fixpoint comprehension {A B} (f : A → result B) (l : list A) : result (list B) :=
  match l with
  | [] => ret []
  | x :: l' => do y <- f x ;; do ys <- comprehension f l' ;; ret (y :: ys)
  end.

(** ** Python built-ins used by the program *)

(** [range(start, stop)]: empty when [stop <= start]. *)
Definition range (start stop : Z) : list Z := seqZ start (stop - start).

(** [l[i]] for a non-negative index. *)
Definition list_index {A} (l : list A) (i : nat) : result A :=
  match l !! i with
  | Some x => ret x
  | None => raise (IndexError "list index out of range")
  end.

(** [enumerate(l)] *)
Definition enumerate {A} (l : list A) : list (nat * A) := imap pair l.

(** [sum(xs)]: starts from 0 and adds from the left. *)
Definition sum (xs : list Z) : Z := foldl Z.add 0 xs.

(** [d.get(key, default)] on a dictionary: never raises, never inserts. *)
Definition dict_get (d : gmap Z Z) (key default : Z) : Z :=
  match d !! key with
  | Some v => v
  | None => default
  end.

(** [Counter(iterable)]: each element bumps its own count, starting from
    an empty mapping, so a value that never occurs has no entry. *)
Definition Counter (iterable : list Z) : gmap Z Z :=
  foldl (λ self elem, <[elem := dict_get self elem 0 + 1]> self) ∅ iterable.

(** ** numpy's argmax and argmin on a list of integers *)

(** The scan numpy runs over a one-dimensional integer array: the first
    element is the running extremum, and a later element replaces it only
    when it is strictly greater (argmax) or strictly smaller (argmin).
    numpy first converts the list to an array; when every score fits a
    signed 64-bit integer the array holds the scores themselves and the
    scan below is what runs.  A score of 2^63 or more beside smaller ones
    makes numpy compare in floating point, which the scan does not model:
    statements about the selected index carry [Forall int64_range]. *)
Fixpoint argmax_scan (mp : Z) (max_ind i : nat) (ip : list Z) : nat :=
  match ip with
  | [] => max_ind
  | x :: ip' =>
      if mp <? x then argmax_scan x i (S i) ip'
      else argmax_scan mp max_ind (S i) ip'
  end.

Fixpoint argmin_scan (mp : Z) (min_ind i : nat) (ip : list Z) : nat :=
  match ip with
  | [] => min_ind
  | x :: ip' =>
      if x <? mp then argmin_scan x i (S i) ip'
      else argmin_scan mp min_ind (S i) ip'
  end.

Definition np_argmax (a : list Z) : result nat :=
  match a with
  | [] => raise (ValueError "attempt to get argmax of an empty sequence")
  | x :: a' => ret (argmax_scan x 0 1 a')
  end.

Definition np_argmin (a : list Z) : result nat :=
  match a with
  | [] => raise (ValueError "attempt to get argmin of an empty sequence")
  | x :: a' => ret (argmin_scan x 0 1 a')
  end.

(** ** Configuration constants *)

Definition USE_LLM_REFINEMENT : bool := false.

Definition DIST_P1_P2 : Z := 5.
Definition DIST_P2_P3 : Z := 2.
Definition DIST_P3_P4 : Z := 11.
Definition DIST_P4_P5 : Z := 10.
Definition SUM_DISTANCES : Z := DIST_P1_P2 + DIST_P2_P3 + DIST_P3_P4 + DIST_P4_P5.

(** ** Helpers on sequences *)

(** [len(l)] *)
Definition len {A} (l : list A) : Z := Z.of_nat (length l).

(** [l[i]] for an integer index: a negative index counts from the end,
    and an index outside [-len(l), len(l))] raises. *)
Definition subscript {A} (l : list A) (i : Z) : result A :=
  if decide (0 ≤ i) then list_index l (Z.to_nat i)
  else if decide (0 ≤ len l + i) then list_index l (Z.to_nat (len l + i))
  else raise (IndexError "list index out of range").

(** [ordered_unique]: [set] keeps one copy of each value and [sorted]
    lists them in ascending order. *)
Definition ordered_unique (sequence : list Z) : list Z :=
  merge_sort Z.le (elements (list_to_set sequence : gset Z)).

(** [calc_distances]: the comprehension runs [i] over
    [range(len(positions) - 1)] and subscripts [positions] twice. *)
Definition calc_distances (positions : list Z) : result (list Z) :=
  comprehension
    (λ i, do hi <- subscript positions (i + 1) ;;
          do lo <- subscript positions i ;;
          ret (hi - lo))
    (range 0 (len positions - 1)).

(** ** Candidate generation *)

(** [generate_p1_5_candidates]: the loop appends one candidate per [p1]. *)
Definition generate_p1_5_candidates : list (list Z) :=
  foldl (λ candidates p1,
           let p2 := p1 + DIST_P1_P2 in
           let p3 := p2 + DIST_P2_P3 in
           let p4 := p3 + DIST_P3_P4 in
           let p5 := p4 + DIST_P4_P5 in
           candidates ++ [[p1; p2; p3; p4; p5]])
        [] (range 1 (51 - SUM_DISTANCES)).

(** The nested comprehension of [main]:
    [[[p6, p7] for p6 in range(1, 12) for p7 in range(p6 + 1, 13)]]. *)
Definition p6_7_candidates : list (list Z) :=
  p6 ← range 1 12; (λ p7, [p6; p7]) <$> range (p6 + 1) 13.

(** ** Scoring *)

(** [score_p1_5_candidate]: the generator expression subscripts
    [freqs_by_col] with the position of each value, and [sum] adds the
    lookups. *)
Definition score_p1_5_candidate (candidate : list Z)
    (freqs_by_col : list (gmap Z Z)) : result Z :=
  do lookups <- comprehension
               (λ '(i, value),
                  do freq <- list_index freqs_by_col i ;;
                  ret (dict_get freq value 0))
               (enumerate candidate) ;;
  ret (sum lookups).

(** [score_p6_7_candidate]: [p6, p7 = candidate] needs exactly two
    values. *)
Definition score_p6_7_candidate (candidate : list Z)
    (freqs_by_col : list (gmap Z Z)) (distance_counts : gmap Z Z) : result Z :=
  match candidate with
  | [p6; p7] =>
      let distance_score := dict_get distance_counts (p7 - p6) 0 in
      do freq0 <- list_index freqs_by_col 0 ;;
      do freq1 <- list_index freqs_by_col 1 ;;
      ret (dict_get freq0 p6 0 + dict_get freq1 p7 0 + distance_score)
  | [] => raise (ValueError "not enough values to unpack (expected 2, got 0)")
  | [_] => raise (ValueError "not enough values to unpack (expected 2, got 1)")
  | _ => raise (ValueError "too many values to unpack (expected 2)")
  end.

(** ** Extremum selection *)

(** Lines 79-83 and 96-100 of [main], the same four statements for both
    sub-problems: argmax and argmin of the scores, then the two
    subscripts into the candidate list. *)
Definition select_extrema {A} (candidates : list A) (scores : list Z)
    : result (A * A) :=
  do best_idx <- np_argmax scores ;;
  do worst_idx <- np_argmin scores ;;
  do most_likely <- list_index candidates best_idx ;;
  do least_likely <- list_index candidates worst_idx ;;
  ret (most_likely, least_likely).

(** ** The data set *)

(** Modelled from the spec: the data frame that [load_data] and
    [distance_features] (modules [load] and [features], which are not
    among the sources) hand to [main].  It has seven integer position
    columns and the precomputed gap column [D67], without nulls; each
    field is the column [df[name].astype(int)] in row order. *)
Record DataFrame : Type := {
  col_P1 : list Z;
  col_P2 : list Z;
  col_P3 : list Z;
  col_P4 : list Z;
  col_P5 : list Z;
  col_P6 : list Z;
  col_P7 : list Z;
  col_D67 : list Z
}.

Definition p1_5_freqs (df : DataFrame) : list (gmap Z Z) :=
  [Counter (col_P1 df); Counter (col_P2 df); Counter (col_P3 df);
   Counter (col_P4 df); Counter (col_P5 df)].

Definition p1_5_scores (df : DataFrame) : result (list Z) :=
  comprehension (λ c, score_p1_5_candidate c (p1_5_freqs df))
                generate_p1_5_candidates.

Definition p6_7_freqs (df : DataFrame) : list (gmap Z Z) :=
  [Counter (col_P6 df); Counter (col_P7 df)].

Definition distance_counts (df : DataFrame) : gmap Z Z :=
  Counter (col_D67 df).

Definition p6_7_scores (df : DataFrame) : result (list Z) :=
  comprehension
    (λ c, score_p6_7_candidate c (p6_7_freqs df) (distance_counts df))
    p6_7_candidates.

(** ** The report *)

Record datetime : Type := { year : Z; month : Z; day : Z }.

Definition TARGET_DATE : datetime := {| year := 2026; month := 2; day := 3 |}.

Definition zero_pad (width : nat) (s : string) : string :=
  String.concat "" (replicate (width - String.length s) "0"%string) +:+ s.

(** [d.strftime("%Y-%m-%d")] *)
Definition strftime_Y_m_d (d : datetime) : string :=
  zero_pad 4 (pretty (year d)) +:+ "-" +:+ zero_pad 2 (pretty (month d))
    +:+ "-" +:+ zero_pad 2 (pretty (day d)).

(** The dictionaries of the report have fixed keys; they are records
    with one field per key. *)
Record Positions : Type := {
  P1 : Z; P2 : Z; P3 : Z; P4 : Z; P5 : Z; P6 : Z; P7 : Z
}.

Record Distances : Type := {
  P1_P2 : Z; P2_P3 : Z; P3_P4 : Z; P4_P5 : Z; P6_P7 : Z
}.

Record Likelihood : Type := {
  positions : Positions;
  distances : Distances
}.

Record Report : Type := {
  target_date : string;
  day_of_week : string;
  most_likely : Likelihood;
  least_likely : Likelihood
}.

(** One of the two dictionary displays [most_likely] and [least_likely]
    of [main], from the selected 5-tuple and 2-tuple.  The subscripts are
    evaluated in the order of the display. *)
Definition likelihood (p1_5 p6_7 : list Z) : result Likelihood :=
  do v1 <- list_index p1_5 0 ;;
  do v2 <- list_index p1_5 1 ;;
  do v3 <- list_index p1_5 2 ;;
  do v4 <- list_index p1_5 3 ;;
  do v5 <- list_index p1_5 4 ;;
  do v6 <- list_index p6_7 0 ;;
  do v7 <- list_index p6_7 1 ;;
  do hi <- list_index p6_7 1 ;;
  do lo <- list_index p6_7 0 ;;
  ret {| positions := {| P1 := v1; P2 := v2; P3 := v3; P4 := v4; P5 := v5;
                         P6 := v6; P7 := v7 |};
         distances := {| P1_P2 := DIST_P1_P2; P2_P3 := DIST_P2_P3;
                         P3_P4 := DIST_P3_P4; P4_P5 := DIST_P4_P5;
                         P6_P7 := hi - lo |} |}.

(** Lines 66-145 of [main]: everything up to the assembled [result]. *)
Definition assembled_report (df : DataFrame) : result Report :=
  let p1_5_candidates := generate_p1_5_candidates in
  do p1_5_scores <- p1_5_scores df ;;
  do '(most_likely_p1_5, least_likely_p1_5) <-
       select_extrema p1_5_candidates p1_5_scores ;;
  do p6_7_scores <- p6_7_scores df ;;
  do '(most_likely_p6_7, least_likely_p6_7) <-
       select_extrema p6_7_candidates p6_7_scores ;;
  do most_likely <- likelihood most_likely_p1_5 most_likely_p6_7 ;;
  do least_likely <- likelihood least_likely_p1_5 least_likely_p6_7 ;;
  ret {| target_date := strftime_Y_m_d TARGET_DATE;
         day_of_week := "Tuesday";
         most_likely := most_likely;
         least_likely := least_likely |}.

(** [main], returning the report it prints.  [llm_refine] comes from the
    module [llm_agent], which is not among the sources; it is a
    parameter. *)
Definition main (llm_refine : Report → result Report) (df : DataFrame)
    : result Report :=
  do result <- assembled_report df ;;
  if USE_LLM_REFINEMENT then llm_refine result else ret result.

(** * Vocabulary of the properties *)

(** Ascending by the first value. *)
Definition lt_v1 (c d : list Z) : Prop :=
  match c, d with
  | v1 :: _, w1 :: _ => v1 < w1
  | _, _ => False
  end.

Global Instance lt_v1_dec c d : Decision (lt_v1 c d).
Proof. destruct c, d; simpl; apply _. Defined.

(** Ascending by the first value, then by the second. *)
Definition lt_pair (c d : list Z) : Prop :=
  match c, d with
  | [a; b], [a'; b'] => a < a' ∨ (a = a' ∧ b < b')
  | _, _ => False
  end.

Global Instance lt_pair_dec c d : Decision (lt_pair c d).
Proof.
  destruct c as [|a [|b [|? ?]]]; simpl; try apply _;
    destruct d as [|a' [|b' [|? ?]]]; simpl; apply _.
Defined.

(** The integers of a signed 64-bit array element. *)
Definition int64_range (z : Z) : Prop := - 2 ^ 63 ≤ z < 2 ^ 63.

(** [i] is the position of the first occurrence of the maximum (of the
    minimum) of [scores]. *)
Definition first_argmax (scores : list Z) (i : nat) : Prop :=
  ∃ m, scores !! i = Some m ∧
       (∀ j x, scores !! j = Some x → x ≤ m) ∧
       (∀ j x, (j < i)%nat → scores !! j = Some x → x < m).

Definition first_argmin (scores : list Z) (i : nat) : Prop :=
  ∃ m, scores !! i = Some m ∧
       (∀ j x, scores !! j = Some x → m ≤ x) ∧
       (∀ j x, (j < i)%nat → scores !! j = Some x → m < x).

(** The frequency of [value] in [table] as the specification words it:
    the recorded count, and 0 for a value that has no entry. *)
Definition frequency (table : gmap Z Z) (value : Z) : Z :=
  default 0 (table !! value).

(** A frequency table holds a positive count for each value it has an
    entry for. *)
Definition frequency_table (table : gmap Z Z) : Prop :=
  map_Forall (λ _ count, 0 < count) table.

(** A small data set used to exercise the statements below. *)
Definition sample_df : DataFrame :=
  {| col_P1 := [10; 10; 3]; col_P2 := [15; 15; 8]; col_P3 := [17; 20; 10];
     col_P4 := [28; 31; 21]; col_P5 := [38; 44; 31];
     col_P6 := [3; 3; 1]; col_P7 := [5; 6; 4]; col_D67 := [2; 3; 3] |}.

(** The data set without observations: all its tables are empty. *)
Definition empty_df : DataFrame :=
  {| col_P1 := []; col_P2 := []; col_P3 := []; col_P4 := []; col_P5 := [];
     col_P6 := []; col_P7 := []; col_D67 := [] |}.

(** The number of occurrences of [value] in a column. *)
Definition occurrences (value : Z) (column : list Z) : Z :=
  Z.of_nat (length (filter (λ elem, elem = value) column)).

(** Strictly ascending. *)
Definition ascending (l : list Z) : Prop := StronglySorted Z.lt l.

(** The differences of neighbouring values, as a list. *)
Definition adjacent_differences (l : list Z) : list Z :=
  zip_with (λ lo hi, hi - lo) l (tail l).

(** The rules a reported record of positions obeys: slots 1 to 5 within
    1..50 with the four fixed distances, slots 6 and 7 increasing within
    1..12. *)
Definition valid_positions (p : Positions) : Prop :=
  1 ≤ P1 p ∧ P2 p = P1 p + 5 ∧ P3 p = P2 p + 2 ∧ P4 p = P3 p + 11 ∧
  P5 p = P4 p + 10 ∧ P5 p ≤ 50 ∧
  1 ≤ P6 p ∧ P6 p < P7 p ∧ P7 p ≤ 12.

(** Two data sets whose columns hold the same values, in any order. *)
Definition same_columns (df df' : DataFrame) : Prop :=
  col_P1 df ≡ₚ col_P1 df' ∧ col_P2 df ≡ₚ col_P2 df' ∧
  col_P3 df ≡ₚ col_P3 df' ∧ col_P4 df ≡ₚ col_P4 df' ∧
  col_P5 df ≡ₚ col_P5 df' ∧ col_P6 df ≡ₚ col_P6 df' ∧
  col_P7 df ≡ₚ col_P7 df' ∧ col_D67 df ≡ₚ col_D67 df'.

(** The rows of [sample_df] in another order. *)
Definition sample_df_reordered : DataFrame :=
  {| col_P1 := [3; 10; 10]; col_P2 := [8; 15; 15]; col_P3 := [10; 17; 20];
     col_P4 := [21; 28; 31]; col_P5 := [31; 38; 44];
     col_P6 := [1; 3; 3]; col_P7 := [4; 5; 6]; col_D67 := [3; 2; 3] |}.

(** * Properties *)

(** ** The 5-tuple generator *)

(** The loop is a map over the values of [p1]. *)
Lemma generate_p1_5_candidates_fmap :
  generate_p1_5_candidates =
    (λ p1, [p1; p1 + 5; p1 + 7; p1 + 18; p1 + 28]) <$> seqZ 1 22.
Proof. by vm_compute. Qed.

Lemma generate_p1_5_candidates_length :
  length generate_p1_5_candidates = 22%nat.
Proof. by vm_compute. Qed.

Lemma elem_of_generate_p1_5_candidates (c : list Z) :
  c ∈ generate_p1_5_candidates ↔
  ∃ p1, c = [p1; p1 + 5; p1 + 7; p1 + 18; p1 + 28] ∧ 1 ≤ p1 ≤ 22.
Proof.
  rewrite generate_p1_5_candidates_fmap, list_elem_of_fmap.
  setoid_rewrite elem_of_seqZ.
  split; intros (p1 & -> & Hp1); exists p1; (split; [done | lia]).
Qed.

Lemma generate_p1_5_candidates_NoDup : NoDup generate_p1_5_candidates.
Proof.
  rewrite generate_p1_5_candidates_fmap.
  apply NoDup_fmap_2_strong; [| apply NoDup_seqZ].
  intros p q _ _ Heq. by simplify_eq.
Qed.

(** C1, as the code has it: the 5-tuple generator produces exactly 22
    candidates, one for each first value [p1] from 1 to 22 inclusive
    (and no other first value). *)
Theorem generate_p1_5_candidates_count :
  length generate_p1_5_candidates = 22%nat ∧
  ∀ p1, (∃ rest, p1 :: rest ∈ generate_p1_5_candidates) ↔ 1 ≤ p1 ≤ 22.
Proof.
  split; [apply generate_p1_5_candidates_length |].
  intros p1. split.
  - intros (rest & Hin). apply elem_of_generate_p1_5_candidates in Hin.
    destruct Hin as (q & Heq & Hq). by simplify_eq.
  - intros Hp1. eexists. apply elem_of_generate_p1_5_candidates.
    exists p1. by split.
Qed.

(** C1 as stated fails: the generator does not produce 29 candidates. *)
Lemma generate_p1_5_candidates_count_not_29 :
  length generate_p1_5_candidates ≠ 29%nat.
Proof. by vm_compute. Qed.

(** C2: every produced 5-tuple has the gaps 5, 2, 11, 10 and all its
    values within [1, 50]; every 5-tuple with these properties is
    produced; no tuple is produced twice; and the output is ascending by
    its first value. *)
Theorem generate_p1_5_candidates_exact :
  (∀ c, c ∈ generate_p1_5_candidates ↔
        ∃ v1 v2 v3 v4 v5,
          c = [v1; v2; v3; v4; v5] ∧
          v2 = v1 + 5 ∧ v3 = v2 + 2 ∧ v4 = v3 + 11 ∧ v5 = v4 + 10 ∧
          Forall (λ v, 1 ≤ v ≤ 50) [v1; v2; v3; v4; v5]) ∧
  NoDup generate_p1_5_candidates ∧
  StronglySorted lt_v1 generate_p1_5_candidates.
Proof.
  split; [| split].
  - intros c. rewrite elem_of_generate_p1_5_candidates. split.
    + intros (p1 & -> & Hp1).
      exists p1, (p1 + 5), (p1 + 7), (p1 + 18), (p1 + 28).
      repeat split; try lia. repeat (constructor; [lia |]). constructor.
    + intros (v1 & v2 & v3 & v4 & v5 & -> & -> & -> & -> & -> & Hall).
      exists v1. rewrite !Forall_cons in Hall.
      split; [f_equal; repeat (f_equal; try lia) | lia].
  - apply generate_p1_5_candidates_NoDup.
  - compute_done.
Qed.

(** ** The 2-tuple generator *)

Lemma elem_of_p6_7_candidates c :
  c ∈ p6_7_candidates ↔ ∃ a b, c = [a; b] ∧ 1 ≤ a ∧ a < b ∧ b ≤ 12.
Proof.
  unfold p6_7_candidates, range. rewrite list_elem_of_bind. split.
  - intros (a & Hc & Ha). apply list_elem_of_fmap in Hc as (b & -> & Hb).
    apply elem_of_seqZ in Ha, Hb. exists a, b. split; [done | lia].
  - intros (a & b & -> & Hab). exists a. split.
    + apply list_elem_of_fmap. exists b. split; [done |].
      apply elem_of_seqZ. lia.
    + apply elem_of_seqZ. lia.
Qed.

(** C3: the 2-tuple generator produces exactly the pairs [a, b] with
    1 <= a < b <= 12, each once, ascending by [a] and then by [b], and
    their number is 12 * 11 / 2 = 66. *)
Theorem p6_7_candidates_exact :
  (∀ c, c ∈ p6_7_candidates ↔ ∃ a b, c = [a; b] ∧ 1 ≤ a ∧ a < b ∧ b ≤ 12) ∧
  NoDup p6_7_candidates ∧
  StronglySorted lt_pair p6_7_candidates ∧
  Z.of_nat (length p6_7_candidates) = 12 * 11 / 2 ∧
  length p6_7_candidates = 66%nat.
Proof.
  split; [apply elem_of_p6_7_candidates |].
  split; [compute_done |].
  split; [compute_done |].
  split; by vm_compute.
Qed.

(** ** The result monad and comprehensions *)

Lemma bind_ret_r {A} (m : result A) : (do x <- m ;; ret x) = m.
Proof. by destruct m. Qed.

Lemma comprehension_ret {A B} (f : A → result B) (g : A → B) (l : list A) :
  Forall (λ x, f x = ret (g x)) l → comprehension f l = ret (g <$> l).
Proof.
  induction 1 as [|x l Hx _ IH]; [done |].
  simpl. by rewrite Hx, IH.
Qed.

Lemma list_index_lookup {A} (l : list A) (i : nat) (x : A) :
  l !! i = Some x → list_index l i = ret x.
Proof. unfold list_index. by intros ->. Qed.

(** ** argmax and argmin *)

Lemma argmax_scan_spec (ip pre : list Z) (mp : Z) (max_ind : nat) :
  pre !! max_ind = Some mp →
  (∀ j x, pre !! j = Some x → x ≤ mp) →
  (∀ j x, (j < max_ind)%nat → pre !! j = Some x → x < mp) →
  first_argmax (pre ++ ip) (argmax_scan mp max_ind (length pre) ip).
Proof.
  revert pre mp max_ind.
  induction ip as [|x ip IH]; intros pre mp max_ind Hmp Hle Hlt; simpl.
  - rewrite app_nil_r. by exists mp.
  - assert (max_ind < length pre)%nat by by eapply lookup_lt_Some.
    replace (S (length pre)) with (length (pre ++ [x]))
      by (rewrite length_app; simpl; lia).
    rewrite (cons_middle x pre ip), app_assoc.
    destruct (Z.ltb_spec mp x) as [Hx | Hx]; apply IH.
    + by rewrite lookup_app_r, Nat.sub_diag.
    + intros j y Hj. apply lookup_app_Some in Hj as [Hj | [_ Hj]].
      * apply Hle in Hj. lia.
      * apply list_lookup_singleton_Some in Hj as [_ ->]. lia.
    + intros j y Hlen Hj. rewrite lookup_app_l in Hj by done.
      apply Hle in Hj. lia.
    + by rewrite lookup_app_l.
    + intros j y Hj. apply lookup_app_Some in Hj as [Hj | [_ Hj]].
      * by eapply Hle.
      * by apply list_lookup_singleton_Some in Hj as [_ ->].
    + intros j y Hlen Hj. rewrite lookup_app_l in Hj by lia.
      by eapply Hlt.
Qed.

(** argmin is argmax of the negated scores, comparison by comparison. *)
Lemma argmin_scan_opp (ip : list Z) (mp : Z) (min_ind i : nat) :
  argmin_scan mp min_ind i ip = argmax_scan (- mp) min_ind i (Z.opp <$> ip).
Proof.
  revert mp min_ind i. induction ip as [|x ip IH]; intros mp min_ind i; [done |].
  simpl. rewrite !IH.
  destruct (Z.ltb_spec x mp), (Z.ltb_spec (- mp) (- x)); done || lia.
Qed.

Lemma first_argmax_opp (scores : list Z) (i : nat) :
  first_argmax (Z.opp <$> scores) i → first_argmin scores i.
Proof.
  intros (m & Hm & Hle & Hlt).
  rewrite list_lookup_fmap in Hm.
  destruct (scores !! i) as [mi|] eqn:Hmi; simplify_eq/=.
  exists mi. split; [done |]. split.
  - intros j x Hj. specialize (Hle j (- x)).
    rewrite list_lookup_fmap, Hj in Hle. specialize (Hle eq_refl). lia.
  - intros j x Hji Hj. specialize (Hlt j (- x) Hji).
    rewrite list_lookup_fmap, Hj in Hlt. specialize (Hlt eq_refl). lia.
Qed.

Lemma np_argmax_spec (scores : list Z) :
  scores ≠ [] → ∃ i, np_argmax scores = ret i ∧ first_argmax scores i.
Proof.
  destruct scores as [|x a]; [done |]. intros _.
  eexists. split; [done |].
  apply (argmax_scan_spec a [x] x 0); [done | |].
  - by intros [|j] y Hj; simplify_eq/=.
  - intros j y Hj. lia.
Qed.

Lemma np_argmin_spec (scores : list Z) :
  scores ≠ [] → ∃ i, np_argmin scores = ret i ∧ first_argmin scores i.
Proof.
  destruct scores as [|x a]; [done |]. intros _.
  eexists. split; [done |].
  rewrite argmin_scan_opp. apply first_argmax_opp. rewrite fmap_cons.
  apply (argmax_scan_spec (Z.opp <$> a) [- x] (- x) 0); [done | |].
  - by intros [|j] y Hj; simplify_eq/=.
  - intros j y Hj. lia.
Qed.

(** When no later score beats the first one, the scan keeps index 0. *)
Lemma argmax_scan_keep (ip : list Z) (mp : Z) (max_ind i : nat) :
  Forall (λ x, x ≤ mp) ip → argmax_scan mp max_ind i ip = max_ind.
Proof.
  revert i. induction ip as [|x ip IH]; intros i Hall; [done |].
  apply Forall_cons in Hall as [Hx Hall]. simpl.
  destruct (Z.ltb_spec mp x); [lia | by apply IH].
Qed.

Lemma argmin_scan_keep (ip : list Z) (mp : Z) (min_ind i : nat) :
  Forall (λ x, mp ≤ x) ip → argmin_scan mp min_ind i ip = min_ind.
Proof.
  revert i. induction ip as [|x ip IH]; intros i Hall; [done |].
  apply Forall_cons in Hall as [Hx Hall]. simpl.
  destruct (Z.ltb_spec x mp); [lia | by apply IH].
Qed.

(** ** The Extremum Selector *)

Lemma select_extrema_spec {A} (candidates : list A) (scores : list Z) :
  candidates ≠ [] →
  length candidates = length scores →
  ∃ i j ci cj,
    select_extrema candidates scores = ret (ci, cj) ∧
    candidates !! i = Some ci ∧ candidates !! j = Some cj ∧
    first_argmax scores i ∧ first_argmin scores j.
Proof.
  intros Hne Hlen.
  assert (scores ≠ []) as Hs by (intros ->; by destruct candidates).
  destruct (np_argmax_spec scores Hs) as (i & Hi & Hmax).
  destruct (np_argmin_spec scores Hs) as (j & Hj & Hmin).
  assert (is_Some (candidates !! i)) as [ci Hci].
  { apply lookup_lt_is_Some. rewrite Hlen.
    destruct Hmax as (m & Hm & _). by eapply lookup_lt_Some. }
  assert (is_Some (candidates !! j)) as [cj Hcj].
  { apply lookup_lt_is_Some. rewrite Hlen.
    destruct Hmin as (m & Hm & _). by eapply lookup_lt_Some. }
  exists i, j, ci, cj. repeat split; try done.
  unfold select_extrema. rewrite Hi, Hj. simpl.
  by rewrite (list_index_lookup _ _ _ Hci), (list_index_lookup _ _ _ Hcj).
Qed.

(** With all scores equal, both selections are the first candidate. *)
Lemma select_extrema_equal_scores {A} (c : A) (candidates : list A)
    (s : Z) (scores : list Z) :
  Forall (λ x, x = s) scores →
  select_extrema (c :: candidates) (s :: scores) = ret (c, c).
Proof.
  intros Hall. unfold select_extrema. simpl.
  rewrite argmax_scan_keep, argmin_scan_keep; [done | |];
    eapply Forall_impl; try apply Hall; simpl; lia.
Qed.

(** C4: on a non-empty candidate list with a parallel list of scores,
    each within the signed 64-bit range, the selector returns the
    candidate at the index of the maximum score and the candidate at the
    index of the minimum score, the first occurrence winning on ties for
    both; for the scores [3, 7, 7, 2] the maximum is selected at index 1
    (and the minimum at index 3). *)
Theorem select_extrema_first_occurrence {A} (candidates : list A)
    (scores : list Z) :
  candidates ≠ [] →
  length candidates = length scores →
  Forall int64_range scores →
  (∃ i j ci cj,
     select_extrema candidates scores = ret (ci, cj) ∧
     candidates !! i = Some ci ∧ candidates !! j = Some cj ∧
     first_argmax scores i ∧ first_argmin scores j) ∧
  np_argmax [3; 7; 7; 2] = ret 1%nat ∧
  (∀ c0 c1 c2 c3 : A,
     select_extrema [c0; c1; c2; c3] [3; 7; 7; 2] = ret (c1, c3)).
Proof.
  intros Hne Hlen _. split; [by apply select_extrema_spec |]. by split.
Qed.

Lemma select_extrema_first_occurrence_witness :
  (∃ i j ci cj,
     select_extrema [[1; 2]; [1; 3]; [1; 4]; [1; 5]] [3; 7; 7; 2] = ret (ci, cj) ∧
     [[1; 2]; [1; 3]; [1; 4]; [1; 5]] !! i = Some ci ∧
     [[1; 2]; [1; 3]; [1; 4]; [1; 5]] !! j = Some cj ∧
     first_argmax [3; 7; 7; 2] i ∧ first_argmin [3; 7; 7; 2] j) ∧
  np_argmax [3; 7; 7; 2] = ret 1%nat ∧
  (∀ c0 c1 c2 c3 : list Z,
     select_extrema [c0; c1; c2; c3] [3; 7; 7; 2] = ret (c1, c3)).
Proof.
  apply (select_extrema_first_occurrence
           [[1; 2]; [1; 3]; [1; 4]; [1; 5]] [3; 7; 7; 2]).
  - discriminate.
  - reflexivity.
  - repeat constructor; unfold int64_range; lia.
Defined.

(** C5, as the code has it: on an empty candidate list, whose score list
    is then empty too, the selection stops at its first statement with
    the [ValueError] that numpy's argmax raises on an empty sequence; no
    candidate is subscripted and no selection is returned. *)
Theorem select_extrema_empty_raises {A} (score : A → result Z) :
  select_extrema (@nil A) [] =
    raise (ValueError "attempt to get argmax of an empty sequence") ∧
  (do scores <- comprehension score [] ;; select_extrema (@nil A) scores) =
    raise (ValueError "attempt to get argmax of an empty sequence").
Proof. by split. Qed.

(** C5 as stated fails: the failure on an empty candidate list is not a
    configuration error. *)
Lemma select_extrema_empty_not_configuration_error :
  select_extrema (@nil (list Z)) [] ≠ raise ConfigurationError.
Proof. discriminate. Qed.

(** ** Scoring *)

Lemma dict_get_frequency (table : gmap Z Z) (value : Z) :
  dict_get table value 0 = frequency table value.
Proof. unfold dict_get, frequency. by destruct (table !! value). Qed.

(** C6: the score of a 2-tuple [a, b] is the frequency of [a] in the
    slot-6 table plus the frequency of [b] in the slot-7 table plus the
    frequency of [b - a] in the gap table, absent values counting 0. *)
Theorem score_p6_7_candidate_sum (a b : Z) (freq_p6 freq_p7 : gmap Z Z)
    (distance_counts : gmap Z Z) :
  score_p6_7_candidate [a; b] [freq_p6; freq_p7] distance_counts =
    ret (frequency freq_p6 a + frequency freq_p7 b
         + frequency distance_counts (b - a)).
Proof.
  unfold score_p6_7_candidate. simpl. by rewrite !dict_get_frequency.
Qed.

Lemma dict_get_nonneg (table : gmap Z Z) (value : Z) :
  frequency_table table → 0 ≤ dict_get table value 0.
Proof.
  intros Htable. unfold dict_get.
  destruct (table !! value) as [count|] eqn:Hcount; [| done].
  apply Htable in Hcount. simpl in Hcount. lia.
Qed.

Lemma Counter_frequency_table (iterable : list Z) :
  frequency_table (Counter iterable).
Proof.
  unfold Counter.
  assert (frequency_table (∅ : gmap Z Z)) as Hinit by apply map_Forall_empty.
  revert Hinit. generalize (∅ : gmap Z Z).
  induction iterable as [|elem iterable IH]; intros self Hself; [done |].
  simpl. apply IH. apply map_Forall_insert_2; [| done].
  pose proof (dict_get_nonneg self elem Hself). lia.
Qed.

(** The count recorded for a value is its number of occurrences. *)
Lemma Counter_get (iterable : list Z) (value : Z) :
  dict_get (Counter iterable) value 0 =
    Z.of_nat (length (filter (λ elem, elem = value) iterable)).
Proof.
  unfold Counter.
  transitivity (dict_get (∅ : gmap Z Z) value 0
                + Z.of_nat (length (filter (λ elem, elem = value) iterable)));
    [| done].
  generalize (∅ : gmap Z Z).
  induction iterable as [|elem iterable IH]; intros self; simpl; [lia |].
  rewrite IH. unfold dict_get at 1.
  destruct (decide (elem = value)) as [-> | Hne].
  - rewrite lookup_insert_eq, filter_cons_True by done. simpl.
    unfold dict_get. lia.
  - rewrite lookup_insert_ne, filter_cons_False by done. done.
Qed.

Lemma comprehension_Forall {A B} (P : B → Prop) (f : A → result B)
    (l : list A) :
  Forall (λ x, ∃ y, f x = ret y ∧ P y) l →
  ∃ ys, comprehension f l = ret ys ∧ Forall P ys ∧ length ys = length l.
Proof.
  induction 1 as [|x l (y & Hy & HP) _ (ys & Hys & HPs & Hlen)].
  - by exists [].
  - exists (y :: ys). simpl. rewrite Hy, Hys. simpl.
    repeat split; [by constructor | by rewrite Hlen].
Qed.

Lemma foldl_add_nonneg (xs : list Z) (acc : Z) :
  0 ≤ acc → Forall (λ x, 0 ≤ x) xs → 0 ≤ foldl Z.add acc xs.
Proof.
  revert acc. induction xs as [|x xs IH]; intros acc Hacc Hall; [done |].
  apply Forall_cons in Hall as [Hx Hall]. simpl. apply IH; [lia | done].
Qed.

Lemma sum_nonneg (xs : list Z) : Forall (λ x, 0 ≤ x) xs → 0 ≤ sum xs.
Proof. by apply foldl_add_nonneg. Qed.

Lemma score_p1_5_candidate_nonneg (candidate : list Z)
    (freqs_by_col : list (gmap Z Z)) :
  Forall frequency_table freqs_by_col →
  (length candidate ≤ length freqs_by_col)%nat →
  ∃ s, score_p1_5_candidate candidate freqs_by_col = ret s ∧ 0 ≤ s.
Proof.
  intros Htables Hlen. unfold score_p1_5_candidate.
  destruct (comprehension_Forall (λ y, 0 ≤ y)
              (λ '(i, value),
                 do freq <- list_index freqs_by_col i ;;
                 ret (dict_get freq value 0))
              (enumerate candidate)) as (ys & -> & Hys & _).
  - apply Forall_lookup_2. intros k [i value] Hk.
    apply list_lookup_imap_Some in Hk as (v & Hv & Heq). simplify_eq.
    apply lookup_lt_Some in Hv.
    destruct (lookup_lt_is_Some_2 freqs_by_col k) as [freq Hfreq]; [lia |].
    exists (dict_get freq v 0).
    rewrite (list_index_lookup _ _ _ Hfreq). split; [done |].
    apply dict_get_nonneg. by eapply Forall_lookup_1.
  - exists (sum ys). split; [done | by apply sum_nonneg].
Qed.



(** ** The assembled report *)

Lemma p1_5_freqs_frequency_tables (df : DataFrame) :
  Forall frequency_table (p1_5_freqs df).
Proof. repeat constructor; apply Counter_frequency_table. Qed.

Lemma p1_5_scores_total (df : DataFrame) :
  ∃ scores, p1_5_scores df = ret scores ∧
            length scores = length generate_p1_5_candidates.
Proof.
  destruct (comprehension_Forall (λ _, True)
              (λ c, score_p1_5_candidate c (p1_5_freqs df))
              generate_p1_5_candidates) as (scores & Hscores & _ & Hlen).
  - apply Forall_forall. intros c Hc.
    apply elem_of_generate_p1_5_candidates in Hc as (p1 & -> & _).
    destruct (score_p1_5_candidate_nonneg [p1; p1 + 5; p1 + 7; p1 + 18; p1 + 28]
                (p1_5_freqs df)) as (s & Hs & _);
      [apply p1_5_freqs_frequency_tables | simpl; lia |].
    by exists s.
  - by exists scores.
Qed.

Lemma p6_7_scores_total (df : DataFrame) :
  ∃ scores, p6_7_scores df = ret scores ∧
            length scores = length p6_7_candidates.
Proof.
  destruct (comprehension_Forall (λ _, True)
              (λ c, score_p6_7_candidate c (p6_7_freqs df) (distance_counts df))
              p6_7_candidates) as (scores & Hscores & _ & Hlen).
  - apply Forall_forall. intros c Hc.
    apply elem_of_p6_7_candidates in Hc as (a & b & -> & _).
    eexists. by split.
  - by exists scores.
Qed.

(** The record that [likelihood] builds from a 5-tuple and a 2-tuple. *)
Lemma likelihood_ret (v1 v2 v3 v4 v5 p6 p7 : Z) :
  likelihood [v1; v2; v3; v4; v5] [p6; p7] =
    ret {| positions := {| P1 := v1; P2 := v2; P3 := v3; P4 := v4; P5 := v5;
                           P6 := p6; P7 := p7 |};
           distances := {| P1_P2 := 5; P2_P3 := 2; P3_P4 := 11; P4_P5 := 10;
                           P6_P7 := p7 - p6 |} |}.
Proof. reflexivity. Qed.

(** [main] always reaches its report: the two selections succeed, they
    pick generated candidates, and the report is built from them. *)
Lemma assembled_report_spec (df : DataFrame) :
  ∃ scores15 scores67 p1 q1 a b a' b',
    p1_5_scores df = ret scores15 ∧
    select_extrema generate_p1_5_candidates scores15 =
      ret ([p1; p1 + 5; p1 + 7; p1 + 18; p1 + 28],
           [q1; q1 + 5; q1 + 7; q1 + 18; q1 + 28]) ∧
    p6_7_scores df = ret scores67 ∧
    select_extrema p6_7_candidates scores67 = ret ([a; b], [a'; b']) ∧
    assembled_report df =
      (do most_likely <- likelihood [p1; p1 + 5; p1 + 7; p1 + 18; p1 + 28] [a; b] ;;
       do least_likely <- likelihood [q1; q1 + 5; q1 + 7; q1 + 18; q1 + 28] [a'; b'] ;;
       ret {| target_date := "2026-02-03"; day_of_week := "Tuesday";
              most_likely := most_likely; least_likely := least_likely |}).
Proof.
  destruct (p1_5_scores_total df) as (scores15 & H15 & Hlen15).
  destruct (p6_7_scores_total df) as (scores67 & H67 & Hlen67).
  destruct (select_extrema_spec generate_p1_5_candidates scores15)
    as (i & j & ci & cj & Hsel15 & Hci & Hcj & _); [done | done |].
  destruct (select_extrema_spec p6_7_candidates scores67)
    as (i' & j' & ci' & cj' & Hsel67 & Hci' & Hcj' & _); [done | done |].
  apply list_elem_of_lookup_2, elem_of_generate_p1_5_candidates in Hci, Hcj.
  apply list_elem_of_lookup_2, elem_of_p6_7_candidates in Hci', Hcj'.
  destruct Hci as (p1 & -> & _), Hcj as (q1 & -> & _).
  destruct Hci' as (a & b & -> & _), Hcj' as (a' & b' & -> & _).
  exists scores15, scores67, p1, q1, a, b, a', b'.
  repeat split; try done.
  unfold assembled_report. by rewrite H15, H67; simpl; rewrite Hsel15, Hsel67.
Qed.

(** C8: whichever candidates are selected, the four gap fields of the
    most-likely and of the least-likely record are the constants 5, 2, 11
    and 10, and the field [P6_P7] is the second value of the selected
    2-tuple minus its first value. *)
Theorem report_distances (df : DataFrame) :
  (∀ v1 v2 v3 v4 v5 p6 p7,
     ∃ record,
       likelihood [v1; v2; v3; v4; v5] [p6; p7] = ret record ∧
       distances record =
         {| P1_P2 := DIST_P1_P2; P2_P3 := DIST_P2_P3; P3_P4 := DIST_P3_P4;
            P4_P5 := DIST_P4_P5; P6_P7 := p7 - p6 |}) ∧
  ∃ report scores67 a b a' b',
    assembled_report df = ret report ∧
    p6_7_scores df = ret scores67 ∧
    select_extrema p6_7_candidates scores67 = ret ([a; b], [a'; b']) ∧
    distances (most_likely report) =
      {| P1_P2 := 5; P2_P3 := 2; P3_P4 := 11; P4_P5 := 10; P6_P7 := b - a |} ∧
    distances (least_likely report) =
      {| P1_P2 := 5; P2_P3 := 2; P3_P4 := 11; P4_P5 := 10; P6_P7 := b' - a' |}.
Proof.
  split.
  - intros. eexists. by split.
  - destruct (assembled_report_spec df)
      as (scores15 & scores67 & p1 & q1 & a & b & a' & b'
          & _ & _ & H67 & Hsel & Hreport).
    eexists _, scores67, a, b, a', b'.
    split; [by rewrite Hreport |]. by repeat split.
Qed.

(** C9: with the refinement switched off, as it is, [main] emits the
    assembled report as it is; [llm_refine] is not applied. *)
Theorem main_without_refinement (llm_refine : Report → result Report)
    (df : DataFrame) :
  USE_LLM_REFINEMENT = false ∧
  main llm_refine df = assembled_report df ∧
  ∃ report, assembled_report df = ret report ∧ main llm_refine df = ret report.
Proof.
  assert (main llm_refine df = assembled_report df) as Hmain.
  { unfold main. simpl. apply bind_ret_r. }
  split; [done |]. split; [done |].
  destruct (assembled_report_spec df)
    as (? & ? & ? & ? & ? & ? & ? & ? & _ & _ & _ & _ & Hreport).
  eexists. rewrite Hmain, Hreport. by split.
Qed.

(** ** Equal scores *)

Lemma bind_ret_l {A B} (x : A) (k : A → result B) :
  (do y <- ret x ;; k y) = k x.
Proof. done. Qed.

Lemma comprehension_const {A B} (f : A → result B) (y : B) (l : list A) :
  Forall (λ x, f x = ret y) l → comprehension f l = ret (const y <$> l).
Proof. apply comprehension_ret. Qed.

Lemma select_extrema_const_scores {A} (c : A) (candidates : list A) (s : Z) :
  select_extrema (c :: candidates) (const s <$> c :: candidates) = ret (c, c).
Proof.
  rewrite fmap_cons. apply select_extrema_equal_scores.
  apply Forall_fmap, Forall_true. done.
Qed.

(** C10: when every 5-tuple candidate has the same score and every
    2-tuple candidate has the same score, the most-likely and the
    least-likely selection are both the first generated candidate,
    [1, 6, 8, 19, 29] and [1, 2], and the report carries them. *)
Theorem equal_scores_select_first_candidate (df : DataFrame) (s15 s67 : Z) :
  Forall (λ c, score_p1_5_candidate c (p1_5_freqs df) = ret s15)
         generate_p1_5_candidates →
  Forall (λ c, score_p6_7_candidate c (p6_7_freqs df) (distance_counts df)
               = ret s67)
         p6_7_candidates →
  ∃ scores15 scores67 report,
    p1_5_scores df = ret scores15 ∧
    select_extrema generate_p1_5_candidates scores15 =
      ret ([1; 6; 8; 19; 29], [1; 6; 8; 19; 29]) ∧
    p6_7_scores df = ret scores67 ∧
    select_extrema p6_7_candidates scores67 = ret ([1; 2], [1; 2]) ∧
    assembled_report df = ret report ∧
    positions (most_likely report) =
      {| P1 := 1; P2 := 6; P3 := 8; P4 := 19; P5 := 29; P6 := 1; P7 := 2 |} ∧
    positions (least_likely report) =
      {| P1 := 1; P2 := 6; P3 := 8; P4 := 19; P5 := 29; P6 := 1; P7 := 2 |}.
Proof.
  intros H15 H67.
  apply comprehension_const in H15, H67.
  fold (p1_5_scores df) in H15. fold (p6_7_scores df) in H67.
  assert (generate_p1_5_candidates =
            [1; 6; 8; 19; 29] :: tail generate_p1_5_candidates) as Hgen
    by by vm_compute.
  assert (p6_7_candidates = [1; 2] :: tail p6_7_candidates) as Hpairs
    by by vm_compute.
  assert (select_extrema generate_p1_5_candidates
            (const s15 <$> generate_p1_5_candidates)
          = ret ([1; 6; 8; 19; 29], [1; 6; 8; 19; 29])) as Hsel15.
  { rewrite Hgen. apply select_extrema_const_scores. }
  assert (select_extrema p6_7_candidates (const s67 <$> p6_7_candidates)
          = ret ([1; 2], [1; 2])) as Hsel67.
  { rewrite Hpairs. apply select_extrema_const_scores. }
  eexists _, _, _. split; [exact H15 |]. split; [exact Hsel15 |].
  split; [exact H67 |]. split; [exact Hsel67 |].
  unfold assembled_report.
  rewrite H15, bind_ret_l, Hsel15, bind_ret_l.
  by rewrite H67, bind_ret_l, Hsel67, bind_ret_l.
Qed.

Lemma equal_scores_select_first_candidate_witness :
  ∃ scores15 scores67 report,
    p1_5_scores empty_df = ret scores15 ∧
    select_extrema generate_p1_5_candidates scores15 =
      ret ([1; 6; 8; 19; 29], [1; 6; 8; 19; 29]) ∧
    p6_7_scores empty_df = ret scores67 ∧
    select_extrema p6_7_candidates scores67 = ret ([1; 2], [1; 2]) ∧
    assembled_report empty_df = ret report ∧
    positions (most_likely report) =
      {| P1 := 1; P2 := 6; P3 := 8; P4 := 19; P5 := 29; P6 := 1; P7 := 2 |} ∧
    positions (least_likely report) =
      {| P1 := 1; P2 := 6; P3 := 8; P4 := 19; P5 := 29; P6 := 1; P7 := 2 |}.
Proof.
  apply (equal_scores_select_first_candidate empty_df 0 0).
  - apply Forall_forall. intros c Hc.
    apply elem_of_generate_p1_5_candidates in Hc as (p1 & -> & _).
    reflexivity.
  - apply Forall_forall. intros c Hc.
    apply elem_of_p6_7_candidates in Hc as (a & b & -> & _).
    reflexivity.
Defined.

(** * Further properties of the helpers and of [main] *)

(** ** [ordered_unique] *)

Lemma ascending_NoDup (l : list Z) : ascending l → NoDup l.
Proof.
  induction 1 as [|x l _ IH Hx]; constructor; [| done].
  intros Hin. rewrite Forall_forall in Hx. specialize (Hx x Hin). lia.
Qed.

Lemma ascending_unique (l k : list Z) :
  ascending l → ascending k → (∀ x, x ∈ l ↔ x ∈ k) → l = k.
Proof.
  intros Hl Hk Hmem.
  apply (StronglySorted_unique_strong Z.lt); [intros; lia | done | done |].
  apply NoDup_Permutation; auto using ascending_NoDup.
Qed.

Lemma le_sorted_NoDup_ascending (l : list Z) :
  StronglySorted Z.le l → NoDup l → ascending l.
Proof.
  induction 1 as [|x l _ IH Hx]; intros Hnd; [constructor |].
  apply NoDup_cons in Hnd as [Hnotin Hnd].
  constructor; [by apply IH |].
  rewrite Forall_forall in Hx |- *. intros y Hy.
  specialize (Hx y Hy). assert (x ≠ y) by (intros ->; done). lia.
Qed.

Lemma ordered_unique_Permutation (sequence : list Z) :
  ordered_unique sequence ≡ₚ elements (list_to_set sequence : gset Z).
Proof. apply merge_sort_Permutation. Qed.

Lemma elem_of_ordered_unique (sequence : list Z) (x : Z) :
  x ∈ ordered_unique sequence ↔ x ∈ sequence.
Proof.
  rewrite ordered_unique_Permutation, elem_of_elements.
  apply elem_of_list_to_set.
Qed.

Lemma NoDup_ordered_unique (sequence : list Z) :
  NoDup (ordered_unique sequence).
Proof. rewrite ordered_unique_Permutation. apply NoDup_elements. Qed.

Lemma ordered_unique_ascending (sequence : list Z) :
  ascending (ordered_unique sequence).
Proof.
  apply le_sorted_NoDup_ascending; [| apply NoDup_ordered_unique].
  apply (StronglySorted_merge_sort Z.le).
Qed.

(** X1: [ordered_unique] returns a strictly ascending list without
    duplicates whose members are exactly the members of its argument. *)
Theorem ordered_unique_ascending_members (sequence : list Z) :
  ascending (ordered_unique sequence) ∧
  NoDup (ordered_unique sequence) ∧
  ∀ x, x ∈ ordered_unique sequence ↔ x ∈ sequence.
Proof.
  split; [apply ordered_unique_ascending |].
  split; [apply NoDup_ordered_unique |].
  intros x. apply elem_of_ordered_unique.
Qed.

(** X2: two sequences have the same [ordered_unique] exactly when they
    have the same members; order and repetitions in the argument do not
    matter. *)
Theorem ordered_unique_eq_iff_same_members (l k : list Z) :
  ordered_unique l = ordered_unique k ↔ ∀ x, x ∈ l ↔ x ∈ k.
Proof.
  split.
  - intros Heq x. by rewrite <-(elem_of_ordered_unique l), Heq,
      elem_of_ordered_unique.
  - intros Hmem. apply ascending_unique; try apply ordered_unique_ascending.
    intros x. by rewrite !elem_of_ordered_unique.
Qed.

Lemma ordered_unique_fixed (l : list Z) : ascending l → ordered_unique l = l.
Proof.
  intros Hl. apply ascending_unique;
    [apply ordered_unique_ascending | done | apply elem_of_ordered_unique].
Qed.

(** X3: [ordered_unique] leaves a sequence unchanged exactly when the
    sequence is strictly ascending; applying it twice is the same as
    applying it once. *)
Theorem ordered_unique_fixed_iff_ascending (l : list Z) :
  (ordered_unique l = l ↔ ascending l) ∧
  ordered_unique (ordered_unique l) = ordered_unique l.
Proof.
  split; [split |].
  - intros <-. apply ordered_unique_ascending.
  - apply ordered_unique_fixed.
  - apply ordered_unique_fixed, ordered_unique_ascending.
Qed.

(** X4: [ordered_unique] never lengthens a sequence, and it keeps the
    length exactly when the sequence has no repeated value. *)
Theorem ordered_unique_length (l : list Z) :
  (length (ordered_unique l) ≤ length l)%nat ∧
  (length (ordered_unique l) = length l ↔ NoDup l).
Proof.
  assert (ordered_unique l ⊆+ l) as Hsub.
  { apply NoDup_submseteq; [apply NoDup_ordered_unique |].
    intros x. by rewrite elem_of_ordered_unique. }
  split; [by apply submseteq_length |]. split.
  - intros Hlen.
    rewrite <-(submseteq_length_Permutation _ _ Hsub) by lia.
    apply NoDup_ordered_unique.
  - intros Hnd. apply Permutation_length, NoDup_Permutation;
      [apply NoDup_ordered_unique | done | apply elem_of_ordered_unique].
Qed.

(** ** [calc_distances] *)

Lemma comprehension_Forall2 {A B} (f : A → result B) (l : list A)
    (ys : list B) :
  Forall2 (λ x y, f x = ret y) l ys → comprehension f l = ret ys.
Proof.
  induction 1 as [|x y l ys Hxy _ IH]; [done |].
  simpl. by rewrite Hxy, IH.
Qed.

Lemma subscript_lookup {A} (l : list A) (i : nat) (x : A) :
  l !! i = Some x → subscript l (Z.of_nat i) = ret x.
Proof.
  intros Hx. unfold subscript.
  rewrite decide_True by lia. rewrite Nat2Z.id.
  by apply list_index_lookup.
Qed.

Lemma length_adjacent_differences (l : list Z) :
  length (adjacent_differences l) = pred (length l).
Proof.
  unfold adjacent_differences. rewrite length_zip_with.
  destruct l as [|x l]; [done |]. cbn [tail length]. lia.
Qed.

Lemma lookup_adjacent_differences (l : list Z) (i : nat) (d : Z) :
  adjacent_differences l !! i = Some d ↔
  ∃ lo hi, l !! i = Some lo ∧ l !! S i = Some hi ∧ d = hi - lo.
Proof.
  unfold adjacent_differences.
  rewrite lookup_zip_with_Some. setoid_rewrite lookup_tail.
  split; intros (lo & hi & H1 & H2 & H3); exists lo, hi; by repeat split.
Qed.

Lemma adjacent_differences_cons (x y : Z) (l : list Z) :
  adjacent_differences (x :: y :: l) = (y - x) :: adjacent_differences (y :: l).
Proof. done. Qed.

(** The comprehension never leaves the list: it returns the differences
    of neighbours. *)
Lemma calc_distances_ret (positions : list Z) :
  calc_distances positions = ret (adjacent_differences positions).
Proof.
  apply comprehension_Forall2, Forall2_same_length_lookup_2.
  - unfold range, len.
    rewrite length_seqZ, length_adjacent_differences. lia.
  - intros i x d Hx Hd. unfold range in Hx.
    apply lookup_seqZ in Hx as [-> _].
    apply lookup_adjacent_differences in Hd as (lo & hi & Hlo & Hhi & ->).
    replace (0 + Z.of_nat i + 1) with (Z.of_nat (S i)) by lia.
    replace (0 + Z.of_nat i) with (Z.of_nat i) by lia.
    by rewrite (subscript_lookup _ _ _ Hhi), (subscript_lookup _ _ _ Hlo).
Qed.

(** X5: [calc_distances] raises on no list of positions; it returns one
    distance less than there are positions (none for an empty list), and
    the distance at index [i] is [positions[i + 1] - positions[i]]. *)
Theorem calc_distances_total (positions : list Z) :
  ∃ distances,
    calc_distances positions = ret distances ∧
    length distances = pred (length positions) ∧
    ∀ i d, distances !! i = Some d ↔
           ∃ lo hi, positions !! i = Some lo ∧ positions !! S i = Some hi ∧
                    d = hi - lo.
Proof.
  exists (adjacent_differences positions).
  split; [apply calc_distances_ret |].
  split; [apply length_adjacent_differences |].
  apply lookup_adjacent_differences.
Qed.

Lemma foldl_add_acc (xs : list Z) (acc : Z) :
  foldl Z.add acc xs = acc + sum xs.
Proof.
  unfold sum. revert acc. induction xs as [|x xs IH]; intros acc; simpl; [lia |].
  rewrite (IH (acc + x)), (IH (0 + x)). lia.
Qed.

Lemma sum_cons (x : Z) (xs : list Z) : sum (x :: xs) = x + sum xs.
Proof. unfold sum at 1. simpl. by rewrite foldl_add_acc. Qed.

Lemma sum_adjacent_differences (first : Z) (rest : list Z) :
  first + sum (adjacent_differences (first :: rest)) =
    default first (last rest).
Proof.
  revert first. induction rest as [|y rest IH]; intros first.
  - unfold sum, adjacent_differences. simpl. lia.
  - rewrite adjacent_differences_cons, sum_cons.
    replace (first + (y - first + sum (adjacent_differences (y :: rest))))
      with (y + sum (adjacent_differences (y :: rest))) by lia.
    rewrite IH, (last_cons y rest). by destruct (last rest).
Qed.

(** X6: the distances of a non-empty list of positions add up to the
    last position minus the first. *)
Theorem calc_distances_sum (first : Z) (rest : list Z) :
  ∃ distances,
    calc_distances (first :: rest) = ret distances ∧
    sum distances = default first (last rest) - first.
Proof.
  exists (adjacent_differences (first :: rest)).
  split; [apply calc_distances_ret |].
  pose proof (sum_adjacent_differences first rest). lia.
Qed.

Lemma adjacent_differences_inj (first : Z) (p q : list Z) :
  adjacent_differences (first :: p) = adjacent_differences (first :: q) →
  p = q.
Proof.
  revert first q. induction p as [|y p IH]; intros first [|z q] Heq;
    try done.
  rewrite !adjacent_differences_cons in Heq.
  injection Heq as Hhead Htail.
  assert (y = z) as -> by lia.
  f_equal. by eapply IH.
Qed.

(** X7: a list of positions is determined by its first position and its
    distances: two lists with the same first position have the same
    result of [calc_distances] exactly when they are equal. *)
Theorem calc_distances_determines_positions (first : Z) (p q : list Z) :
  calc_distances (first :: p) = calc_distances (first :: q) ↔ p = q.
Proof.
  split; [| by intros ->].
  rewrite !calc_distances_ret. intros Heq.
  apply (adjacent_differences_inj first). by simplify_eq.
Qed.

Lemma ascending_adjacent_differences (l : list Z) :
  ascending l ↔ Forall (λ d, 0 < d) (adjacent_differences l).
Proof.
  induction l as [|x [|y l] IH].
  - split; constructor.
  - split; [constructor | repeat constructor].
  - rewrite adjacent_differences_cons, Forall_cons, <-IH.
    unfold ascending. rewrite !StronglySorted_cons, !Forall_cons. split.
    + intros ([Hxy _] & Hy & Hl). split; [lia | done].
    + intros (Hxy & Hy & Hl). split; [| done].
      split; [lia |]. eapply Forall_impl; [exact Hy |]. simpl. lia.
Qed.

(** X8: all distances are positive exactly when the positions are
    strictly ascending. *)
Theorem calc_distances_positive_iff_ascending (positions : list Z) :
  ∃ distances,
    calc_distances positions = ret distances ∧
    (Forall (λ d, 0 < d) distances ↔ ascending positions).
Proof.
  exists (adjacent_differences positions).
  split; [apply calc_distances_ret |].
  symmetry. apply ascending_adjacent_differences.
Qed.

(** X9: the distances of the result of [ordered_unique] are all at
    least 1, whatever the sequence. *)
Theorem calc_distances_ordered_unique (sequence : list Z) :
  ∃ distances,
    calc_distances (ordered_unique sequence) = ret distances ∧
    Forall (λ d, 1 ≤ d) distances.
Proof.
  exists (adjacent_differences (ordered_unique sequence)).
  split; [apply calc_distances_ret |].
  eapply Forall_impl;
    [apply ascending_adjacent_differences, ordered_unique_ascending |].
  simpl. lia.
Qed.

(** ** The generated candidates and the helpers *)

Lemma generated_ascending (c : list Z) :
  c ∈ generate_p1_5_candidates ∨ c ∈ p6_7_candidates → ascending c.
Proof.
  intros [Hc | Hc].
  - apply elem_of_generate_p1_5_candidates in Hc as (p1 & -> & _).
    apply ascending_adjacent_differences. unfold adjacent_differences. simpl.
    repeat (constructor; [lia |]). constructor.
  - apply elem_of_p6_7_candidates in Hc as (a & b & -> & _ & Hab & _).
    apply ascending_adjacent_differences. unfold adjacent_differences. simpl.
    repeat (constructor; [lia |]). constructor.
Qed.

(** X10: every candidate that is generated, 5-tuple or 2-tuple, is
    ordered and unique in the sense of the helper: [ordered_unique]
    returns it unchanged. *)
Theorem candidates_ordered_unique :
  Forall (λ c, ordered_unique c = c) generate_p1_5_candidates ∧
  Forall (λ c, ordered_unique c = c) p6_7_candidates.
Proof.
  split; apply Forall_forall; intros c Hc;
    apply ordered_unique_fixed, generated_ascending; auto.
Qed.

(** X11: the 5-tuple candidates are exactly the lists whose first value
    is between 1 and 22 and whose distances, computed by
    [calc_distances], are the four configured gaps. *)
Theorem generate_p1_5_candidates_by_distances (c : list Z) :
  c ∈ generate_p1_5_candidates ↔
  ∃ p1, head c = Some p1 ∧ 1 ≤ p1 ≤ 22 ∧
        calc_distances c =
          ret [DIST_P1_P2; DIST_P2_P3; DIST_P3_P4; DIST_P4_P5].
Proof.
  rewrite elem_of_generate_p1_5_candidates, calc_distances_ret. split.
  - intros (p1 & -> & Hp1). exists p1. repeat split; try lia.
    unfold adjacent_differences. simpl.
    replace (p1 + 5 - p1) with DIST_P1_P2 by (unfold DIST_P1_P2; lia).
    replace (p1 + 7 - (p1 + 5)) with DIST_P2_P3 by (unfold DIST_P2_P3; lia).
    replace (p1 + 18 - (p1 + 7)) with DIST_P3_P4 by (unfold DIST_P3_P4; lia).
    by replace (p1 + 28 - (p1 + 18)) with DIST_P4_P5
      by (unfold DIST_P4_P5; lia).
  - intros (p1 & Hhead & Hp1 & Hdist). exists p1. split; [| done].
    unfold adjacent_differences in Hdist.
    destruct c as [|v1 [|v2 [|v3 [|v4 [|v5 [|v6 c]]]]]]; simplify_eq/=.
    unfold DIST_P1_P2, DIST_P2_P3, DIST_P3_P4, DIST_P4_P5 in *.
    repeat (f_equal; try lia).
Qed.

(** X12: the 2-tuple candidates are exactly the lists with one positive
    distance whose first value is at least 1 and whose second value,
    first value plus distance, is at most 12. *)
Theorem p6_7_candidates_by_distance (c : list Z) :
  c ∈ p6_7_candidates ↔
  ∃ a d, head c = Some a ∧ calc_distances c = ret [d] ∧
         1 ≤ a ∧ 1 ≤ d ∧ a + d ≤ 12.
Proof.
  rewrite elem_of_p6_7_candidates, calc_distances_ret. split.
  - intros (a & b & -> & Ha & Hab & Hb). exists a, (b - a).
    repeat split; try done; lia.
  - intros (a & d & Hhead & Hdist & Ha & Hd & Had).
    unfold adjacent_differences in Hdist.
    destruct c as [|v1 [|v2 [|v3 c]]]; simplify_eq/=.
    exists a, v2. split; [done | lia].
Qed.

(** ** Failures of the scorers *)

Lemma comprehension_raise {A B} (f : A → result B) (e : exn) (l : list A) :
  Forall (λ x, (∃ y, f x = ret y) ∨ f x = raise e) l →
  Exists (λ x, f x = raise e) l →
  comprehension f l = raise e.
Proof.
  induction 1 as [|x l Hx Hl IH]; intros Hex; [by inv Hex |].
  simpl. destruct Hx as [(y & Hy) | ->]; [| done].
  rewrite Hy. simpl. inv Hex; [unfold ret, raise in *; congruence |].
  by rewrite IH.
Qed.

(** X13: [score_p1_5_candidate] returns a score when there is a table
    for each value of the candidate, and raises [IndexError] when the
    candidate has more values than there are tables. *)
Theorem score_p1_5_candidate_defined (candidate : list Z)
    (freqs_by_col : list (gmap Z Z)) :
  ((length candidate ≤ length freqs_by_col)%nat ∧
   ∃ s, score_p1_5_candidate candidate freqs_by_col = ret s) ∨
  ((length freqs_by_col < length candidate)%nat ∧
   score_p1_5_candidate candidate freqs_by_col =
     raise (IndexError "list index out of range")).
Proof.
  set (body := λ '(i, value),
         do freq <- list_index freqs_by_col i ;;
         ret (dict_get freq value 0)).
  assert (∀ i value, (i < length freqs_by_col)%nat →
            ∃ y, body (i, value) = ret y) as Hin.
  { intros i value Hi. apply lookup_lt_is_Some_2 in Hi as [freq Hfreq].
    eexists. unfold body. by rewrite (list_index_lookup _ _ _ Hfreq). }
  assert (∀ i value, (length freqs_by_col ≤ i)%nat →
            body (i, value) = raise (IndexError "list index out of range"))
    as Hout.
  { intros i value Hi. unfold body, list_index.
    by rewrite lookup_ge_None_2. }
  unfold score_p1_5_candidate. fold body.
  destruct (decide (length candidate ≤ length freqs_by_col)%nat) as [Hle | Hgt].
  - left. split; [done |].
    destruct (comprehension_Forall (λ _, True) body (enumerate candidate))
      as (ys & -> & _).
    + apply Forall_lookup_2. intros k [i value] Hk.
      apply list_lookup_imap_Some in Hk as (v & Hv & Heq). simplify_eq.
      apply lookup_lt_Some in Hv.
      destruct (Hin k v) as [y Hy]; [lia | by exists y].
    + by eexists.
  - right. split; [lia |].
    rewrite (comprehension_raise body
               (IndexError "list index out of range")); [done | |].
    + apply Forall_lookup_2. intros k [i value] Hk.
      apply list_lookup_imap_Some in Hk as (v & Hv & Heq). simplify_eq.
      destruct (decide (k < length freqs_by_col)%nat).
      * left. by apply Hin.
      * right. apply Hout. lia.
    + destruct (lookup_lt_is_Some_2 candidate (length freqs_by_col))
        as [v Hv]; [lia |].
      apply Exists_exists. exists (length freqs_by_col, v). split.
      * apply list_elem_of_lookup. exists (length freqs_by_col).
        unfold enumerate. by rewrite list_lookup_imap, Hv.
      * by apply Hout.
Qed.

(** X14: [score_p6_7_candidate] returns a score exactly when the
    candidate has two values and there are at least two tables; a
    candidate of another length raises [ValueError] whatever the tables,
    and two values with fewer than two tables raise [IndexError]. *)
Theorem score_p6_7_candidate_defined (candidate : list Z)
    (freqs_by_col : list (gmap Z Z)) (distance_counts : gmap Z Z) :
  ((∃ s, score_p6_7_candidate candidate freqs_by_col distance_counts = ret s) ↔
   length candidate = 2%nat ∧ (2 ≤ length freqs_by_col)%nat) ∧
  (length candidate ≠ 2%nat ↔
   ∃ msg, score_p6_7_candidate candidate freqs_by_col distance_counts =
            raise (ValueError msg)) ∧
  (length candidate = 2%nat ∧ (length freqs_by_col < 2)%nat ↔
   score_p6_7_candidate candidate freqs_by_col distance_counts =
     raise (IndexError "list index out of range")).
Proof.
  destruct candidate as [|p6 [|p7 [|p8 candidate]]];
    destruct freqs_by_col as [|freq0 [|freq1 freqs]]; simpl;
    (split; [| split]); split;
    try (intros [? ?]); try (intros ?); try split;
    try done; try lia; try (by eexists); simplify_eq/=; try lia.
Qed.

(** ** Frequency tables built by [main] *)

Lemma occurrences_pos (iterable : list Z) (value : Z) :
  value ∈ iterable ↔ 0 < occurrences value iterable.
Proof.
  unfold occurrences. split.
  - intros Hin. assert (value ∈ filter (λ elem, elem = value) iterable) as Hf
      by by apply list_elem_of_filter.
    destruct (filter _ iterable); [by apply elem_of_nil in Hf | simpl; lia].
  - intros Hpos.
    destruct (filter (λ elem, elem = value) iterable) as [|y ys] eqn:Hf;
      [simpl in Hpos; lia |].
    assert (y ∈ filter (λ elem, elem = value) iterable) as Hy
      by (rewrite Hf; apply list_elem_of_here).
    apply list_elem_of_filter in Hy as [-> Hy]. done.
Qed.

Lemma Counter_lookup (iterable : list Z) (value : Z) :
  Counter iterable !! value =
  if decide (value ∈ iterable) then Some (occurrences value iterable)
  else None.
Proof.
  pose proof (Counter_get iterable value) as Hget.
  pose proof (Counter_frequency_table iterable) as Htable.
  pose proof (occurrences_pos iterable value) as Hpos.
  fold (occurrences value iterable) in Hget. unfold dict_get in Hget.
  destruct (Counter iterable !! value) as [count|] eqn:Hcount.
  - apply Htable in Hcount. simpl in Hcount.
    rewrite decide_True by (apply Hpos; lia). by rewrite Hget.
  - rewrite decide_False; [done |]. rewrite Hpos. lia.
Qed.

(** X15: a frequency table has an entry exactly for the values that
    occur in its column, the entry is the number of occurrences, and a
    lookup with default 0 gives the number of occurrences for every
    value. *)
Theorem Counter_occurrences (iterable : list Z) (value : Z) :
  (Counter iterable !! value = None ↔ value ∉ iterable) ∧
  (∀ count, Counter iterable !! value = Some count →
            count = occurrences value iterable ∧ 1 ≤ count) ∧
  dict_get (Counter iterable) value 0 = occurrences value iterable.
Proof.
  rewrite Counter_lookup. split; [| split].
  - case_decide; naive_solver.
  - intros count Hcount. case_decide as Hin; simplify_eq.
    split; [done |]. apply occurrences_pos in Hin. lia.
  - apply Counter_get.
Qed.

Lemma scores_count_occurrences_p1_5 (df : DataFrame) (v1 v2 v3 v4 v5 : Z) :
  score_p1_5_candidate [v1; v2; v3; v4; v5] (p1_5_freqs df) =
    ret (occurrences v1 (col_P1 df) + occurrences v2 (col_P2 df)
         + occurrences v3 (col_P3 df) + occurrences v4 (col_P4 df)
         + occurrences v5 (col_P5 df)).
Proof.
  unfold score_p1_5_candidate, p1_5_freqs, enumerate, sum. simpl.
  rewrite !Counter_get. f_equal.
Qed.

Lemma scores_count_occurrences_p6_7 (df : DataFrame) (p6 p7 : Z) :
  score_p6_7_candidate [p6; p7] (p6_7_freqs df) (distance_counts df) =
    ret (occurrences p6 (col_P6 df) + occurrences p7 (col_P7 df)
         + occurrences (p7 - p6) (col_D67 df)).
Proof.
  unfold score_p6_7_candidate, p6_7_freqs, distance_counts. simpl.
  by rewrite !Counter_get.
Qed.

(** X16: in [main] the score of a 5-tuple is the number of rows whose
    slot-1 value is its first value, plus the same count for slots 2 to
    5; the score of a 2-tuple counts its two values in slots 6 and 7 and
    its difference in the column [D67]. *)
Theorem scores_count_occurrences (df : DataFrame) :
  (∀ v1 v2 v3 v4 v5,
     score_p1_5_candidate [v1; v2; v3; v4; v5] (p1_5_freqs df) =
       ret (occurrences v1 (col_P1 df) + occurrences v2 (col_P2 df)
            + occurrences v3 (col_P3 df) + occurrences v4 (col_P4 df)
            + occurrences v5 (col_P5 df))) ∧
  (∀ p6 p7,
     score_p6_7_candidate [p6; p7] (p6_7_freqs df) (distance_counts df) =
       ret (occurrences p6 (col_P6 df) + occurrences p7 (col_P7 df)
            + occurrences (p7 - p6) (col_D67 df))).
Proof.
  split.
  - apply scores_count_occurrences_p1_5.
  - apply scores_count_occurrences_p6_7.
Qed.

(** ** Selection in [main] *)

Lemma comprehension_inv {A B} (f : A → result B) (l : list A) (ys : list B) :
  comprehension f l = ret ys → Forall2 (λ x y, f x = ret y) l ys.
Proof.
  revert ys. induction l as [|x l IH]; intros ys Hys; simpl in Hys.
  - injection Hys as <-. constructor.
  - destruct (f x) as [e | y] eqn:Hy; [done |]. simpl in Hys.
    destruct (comprehension f l) as [e | ys'] eqn:Hl; [done |].
    injection Hys as <-. constructor; [done | by apply IH].
Qed.

Lemma select_extrema_inv {A} (candidates : list A) (scores : list Z)
    (most least : A) :
  select_extrema candidates scores = ret (most, least) →
  ∃ i j, first_argmax scores i ∧ first_argmin scores j ∧
         candidates !! i = Some most ∧ candidates !! j = Some least.
Proof.
  intros Hsel. assert (scores ≠ []) as Hne by (by intros ->).
  destruct (np_argmax_spec scores Hne) as (i & Hi & Hmax).
  destruct (np_argmin_spec scores Hne) as (j & Hj & Hmin).
  exists i, j. unfold select_extrema in Hsel.
  rewrite Hi, Hj in Hsel. simpl in Hsel. unfold list_index in Hsel.
  destruct (candidates !! i) as [ci|]; [| done].
  destruct (candidates !! j) as [cj|]; [| done].
  by simplify_eq/=.
Qed.

(** The selected candidates carry the greatest and the least score. *)
Lemma select_extrema_by_score {A} (score : A → result Z)
    (candidates : list A) (scores : list Z) (most least : A) :
  comprehension score candidates = ret scores →
  select_extrema candidates scores = ret (most, least) →
  ∃ s_most s_least,
    score most = ret s_most ∧ score least = ret s_least ∧
    ∀ c s, c ∈ candidates → score c = ret s → s_least ≤ s ≤ s_most.
Proof.
  intros Hscores%comprehension_inv
    (i & j & (m & Hm & Hle & _) & (m' & Hm' & Hge & _) & Hi & Hj)%select_extrema_inv.
  exists m, m'.
  pose proof (Forall2_lookup_lr _ _ _ _ _ _ Hscores Hi Hm) as Hmost.
  pose proof (Forall2_lookup_lr _ _ _ _ _ _ Hscores Hj Hm') as Hleast.
  repeat split; try done.
  - apply list_elem_of_lookup in H as [k Hk].
    destruct (Forall2_lookup_l _ _ _ _ _ Hscores Hk) as (s' & Hs' & Hcs').
    unfold ret in *. assert (s = s') as -> by congruence. by eapply Hge.
  - apply list_elem_of_lookup in H as [k Hk].
    destruct (Forall2_lookup_l _ _ _ _ _ Hscores Hk) as (s' & Hs' & Hcs').
    unfold ret in *. assert (s = s') as -> by congruence. by eapply Hle.
Qed.

(** X17: in both sub-problems of [main] the most-likely candidate has a
    score at least as great, and the least-likely candidate a score at
    most as great, as every generated candidate. *)
Theorem main_selects_extreme_scores (df : DataFrame) :
  (∃ scores most least s_most s_least,
     p1_5_scores df = ret scores ∧
     select_extrema generate_p1_5_candidates scores = ret (most, least) ∧
     score_p1_5_candidate most (p1_5_freqs df) = ret s_most ∧
     score_p1_5_candidate least (p1_5_freqs df) = ret s_least ∧
     ∀ c s, c ∈ generate_p1_5_candidates →
            score_p1_5_candidate c (p1_5_freqs df) = ret s →
            s_least ≤ s ≤ s_most) ∧
  (∃ scores most least s_most s_least,
     p6_7_scores df = ret scores ∧
     select_extrema p6_7_candidates scores = ret (most, least) ∧
     score_p6_7_candidate most (p6_7_freqs df) (distance_counts df) = ret s_most ∧
     score_p6_7_candidate least (p6_7_freqs df) (distance_counts df) = ret s_least ∧
     ∀ c s, c ∈ p6_7_candidates →
            score_p6_7_candidate c (p6_7_freqs df) (distance_counts df) = ret s →
            s_least ≤ s ≤ s_most).
Proof.
  destruct (assembled_report_spec df)
    as (scores15 & scores67 & p1 & q1 & a & b & a' & b'
        & H15 & Hsel15 & H67 & Hsel67 & _).
  split.
  - destruct (select_extrema_by_score _ _ _ _ _ H15 Hsel15)
      as (s_most & s_least & Hmost & Hleast & Hall).
    by eexists scores15, _, _, s_most, s_least.
  - destruct (select_extrema_by_score _ _ _ _ _ H67 Hsel67)
      as (s_most & s_least & Hmost & Hleast & Hall).
    by eexists scores67, _, _, s_most, s_least.
Qed.

Lemma select_extrema_same_iff {A} (candidates : list A) (scores : list Z)
    (most least : A) :
  NoDup candidates →
  select_extrema candidates scores = ret (most, least) →
  most = least ↔ ∃ s, Forall (λ y, y = s) scores.
Proof.
  intros Hnd Hsel. split.
  - intros ->.
    apply select_extrema_inv in Hsel
      as (i & j & (m & Hm & Hle & _) & (m' & Hm' & Hge & _) & Hi & Hj).
    assert (i = j) as <- by by eapply NoDup_lookup.
    assert (m = m') as <- by congruence.
    exists m. apply Forall_lookup_2. intros k y Hy.
    specialize (Hle k y Hy). specialize (Hge k y Hy). lia.
  - intros (s & Hall).
    pose proof Hsel as (i & _ & _ & _ & Hi & _)%select_extrema_inv.
    destruct candidates as [|c candidates]; [done |].
    destruct scores as [|x scores]; [done |].
    apply Forall_cons in Hall as [-> Hall].
    rewrite (select_extrema_equal_scores c candidates s scores Hall) in Hsel.
    by simplify_eq.
Qed.

Lemma p6_7_candidates_NoDup : NoDup p6_7_candidates.
Proof. compute_done. Qed.

(** X18: in both sub-problems of [main] the most-likely and the
    least-likely selection are the same candidate exactly when all
    candidates have the same score. *)
Theorem main_selections_coincide_iff (df : DataFrame) :
  ∃ scores15 most15 least15 scores67 most67 least67,
    p1_5_scores df = ret scores15 ∧
    select_extrema generate_p1_5_candidates scores15 = ret (most15, least15) ∧
    (most15 = least15 ↔ ∃ s, Forall (λ y, y = s) scores15) ∧
    p6_7_scores df = ret scores67 ∧
    select_extrema p6_7_candidates scores67 = ret (most67, least67) ∧
    (most67 = least67 ↔ ∃ s, Forall (λ y, y = s) scores67).
Proof.
  destruct (assembled_report_spec df)
    as (scores15 & scores67 & p1 & q1 & a & b & a' & b'
        & H15 & Hsel15 & H67 & Hsel67 & _).
  eexists scores15, _, _, scores67, _, _.
  split; [done |]. split; [exact Hsel15 |].
  split; [by eapply select_extrema_same_iff, Hsel15;
            apply generate_p1_5_candidates_NoDup |].
  split; [done |]. split; [exact Hsel67 |].
  eapply select_extrema_same_iff, Hsel67. apply p6_7_candidates_NoDup.
Qed.

(** ** The report *)

(** X19: for every data set and every refinement function [main]
    returns a report; it is dated 2026-02-03, a Tuesday, and both of its
    records obey the rules of the positions: slots 1 to 5 within 1..50
    with the distances 5, 2, 11, 10, slots 6 and 7 increasing within
    1..12, and a gap [P6_P7] between 1 and 11. *)
Theorem main_report_valid (llm_refine : Report → result Report)
    (df : DataFrame) :
  ∃ report,
    main llm_refine df = ret report ∧
    target_date report = "2026-02-03"%string ∧
    day_of_week report = "Tuesday"%string ∧
    valid_positions (positions (most_likely report)) ∧
    valid_positions (positions (least_likely report)) ∧
    1 ≤ P6_P7 (distances (most_likely report)) ≤ 11 ∧
    1 ≤ P6_P7 (distances (least_likely report)) ≤ 11.
Proof.
  destruct (assembled_report_spec df)
    as (scores15 & scores67 & p1 & q1 & a & b & a' & b'
        & H15 & Hsel15 & H67 & Hsel67 & Hreport).
  apply select_extrema_inv in Hsel15 as (i & j & _ & _ & Hi & Hj).
  apply select_extrema_inv in Hsel67 as (i' & j' & _ & _ & Hi' & Hj').
  apply list_elem_of_lookup_2, elem_of_generate_p1_5_candidates in Hi, Hj.
  apply list_elem_of_lookup_2, elem_of_p6_7_candidates in Hi', Hj'.
  destruct Hi as (p & Hp & Hprange), Hj as (q & Hq & Hqrange).
  destruct Hi' as (x & y & Hxy & ? & ? & ?), Hj' as (x' & y' & Hxy' & ? & ? & ?).
  simplify_eq.
  eexists. split.
  { unfold main. simpl. rewrite bind_ret_r, Hreport. reflexivity. }
  unfold valid_positions. simpl. repeat split; try done; lia.
Qed.

Lemma fixed_gaps (p1 : Z) :
  adjacent_differences [p1; p1 + 5; p1 + 7; p1 + 18; p1 + 28] =
    [DIST_P1_P2; DIST_P2_P3; DIST_P3_P4; DIST_P4_P5].
Proof.
  unfold adjacent_differences, DIST_P1_P2, DIST_P2_P3, DIST_P3_P4, DIST_P4_P5.
  simpl. repeat (apply (f_equal2 cons); [lia |]). done.
Qed.

(** X20: in both records of the report the four fixed gap fields are
    the distances that [calc_distances] computes from the reported slots
    1 to 5, and [P6_P7] is the distance it computes from slots 6 and
    7. *)
Theorem report_distances_match_positions (df : DataFrame) :
  ∃ report,
    assembled_report df = ret report ∧
    Forall (λ record,
              calc_distances
                [P1 (positions record); P2 (positions record);
                 P3 (positions record); P4 (positions record);
                 P5 (positions record)]
              = ret [P1_P2 (distances record); P2_P3 (distances record);
                     P3_P4 (distances record); P4_P5 (distances record)] ∧
              calc_distances [P6 (positions record); P7 (positions record)]
              = ret [P6_P7 (distances record)])
           [most_likely report; least_likely report].
Proof.
  destruct (assembled_report_spec df)
    as (scores15 & scores67 & p1 & q1 & a & b & a' & b'
        & _ & _ & _ & _ & Hreport).
  eexists. split; [by rewrite Hreport |].
  simpl. rewrite !Forall_cons, !calc_distances_ret, !fixed_gaps.
  by repeat split.
Qed.

(** ** The order of the rows *)

Lemma occurrences_Permutation (value : Z) (l k : list Z) :
  l ≡ₚ k → occurrences value l = occurrences value k.
Proof. intros Hperm. unfold occurrences. by rewrite Hperm. Qed.

Lemma Counter_Permutation (l k : list Z) : l ≡ₚ k → Counter l = Counter k.
Proof.
  intros Hperm. apply map_eq. intros value.
  rewrite !Counter_lookup, (occurrences_Permutation value l k Hperm).
  destruct (decide (value ∈ l)) as [Hl | Hl];
    destruct (decide (value ∈ k)) as [Hk | Hk]; try done;
    rewrite Hperm in Hl; done.
Qed.

(** X21: the report depends on the values in the columns and not on
    their order: data sets whose columns are permutations of one another
    give the same result. *)
Theorem main_row_order_irrelevant (llm_refine : Report → result Report)
    (df df' : DataFrame) :
  same_columns df df' → main llm_refine df = main llm_refine df'.
Proof.
  intros (H1 & H2 & H3 & H4 & H5 & H6 & H7 & H67).
  unfold main, assembled_report, p1_5_scores, p6_7_scores, p1_5_freqs,
    p6_7_freqs, distance_counts.
  by rewrite (Counter_Permutation _ _ H1), (Counter_Permutation _ _ H2),
    (Counter_Permutation _ _ H3), (Counter_Permutation _ _ H4),
    (Counter_Permutation _ _ H5), (Counter_Permutation _ _ H6),
    (Counter_Permutation _ _ H7), (Counter_Permutation _ _ H67).
Qed.

Lemma main_row_order_irrelevant_witness :
  same_columns sample_df sample_df_reordered ∧
  main ret sample_df = main ret sample_df_reordered.
Proof.
  assert (same_columns sample_df sample_df_reordered) as Hsame.
  { unfold same_columns. simpl. repeat split; compute_done. }
  split; [exact Hsame |].
  exact (main_row_order_irrelevant ret sample_df sample_df_reordered Hsame).
Defined.

(** ** Failures of the selection *)

(** X22: the selection raises numpy's [ValueError] exactly when the
    score list is empty; with a non-empty score list that is no longer
    than the candidate list it returns two candidates; and with scores
    but no candidate it raises [IndexError]. *)
Theorem select_extrema_defined {A} (candidates : list A) (scores : list Z) :
  (scores = [] ↔
   select_extrema candidates scores =
     raise (ValueError "attempt to get argmax of an empty sequence")) ∧
  (scores ≠ [] ∧ (length scores ≤ length candidates)%nat →
   ∃ most least, select_extrema candidates scores = ret (most, least)) ∧
  (scores ≠ [] ∧ candidates = [] →
   select_extrema candidates scores =
     raise (IndexError "list index out of range")).
Proof.
  split; [| split].
  - split; [by intros -> |]. intros Hsel.
    destruct scores as [|x scores]; [done |]. exfalso.
    destruct (np_argmax_spec (x :: scores)) as (i & Hi & _); [done |].
    destruct (np_argmin_spec (x :: scores)) as (j & Hj & _); [done |].
    unfold select_extrema in Hsel. rewrite Hi, Hj in Hsel. simpl in Hsel.
    unfold list_index in Hsel.
    destruct (candidates !! i); [| done]. by destruct (candidates !! j).
  - intros [Hne Hlen].
    destruct (np_argmax_spec scores Hne) as (i & Hi & (m & Hm & _)).
    destruct (np_argmin_spec scores Hne) as (j & Hj & (m' & Hm' & _)).
    apply lookup_lt_Some in Hm, Hm'.
    destruct (lookup_lt_is_Some_2 candidates i) as [ci Hci]; [lia |].
    destruct (lookup_lt_is_Some_2 candidates j) as [cj Hcj]; [lia |].
    exists ci, cj. unfold select_extrema. rewrite Hi, Hj. simpl.
    by rewrite (list_index_lookup _ _ _ Hci), (list_index_lookup _ _ _ Hcj).
  - intros [Hne ->].
    destruct (np_argmax_spec scores Hne) as (i & Hi & _).
    destruct (np_argmin_spec scores Hne) as (j & Hj & _).
    unfold select_extrema. by rewrite Hi, Hj.
Qed.

(** ** Bounds on the scores of [main] *)

Lemma occurrences_bounds (value : Z) (column : list Z) :
  0 ≤ occurrences value column ≤ len column.
Proof.
  unfold occurrences, len.
  pose proof (length_filter (λ elem, elem = value) column). lia.
Qed.

Lemma occurrences_zero (value : Z) (column : list Z) :
  occurrences value column = 0 ↔ value ∉ column.
Proof.
  pose proof (occurrences_bounds value column).
  rewrite occurrences_pos. lia.
Qed.

(** X23: in [main] the score of a 5-tuple is at least 0 and at most the
    number of values in the five columns, and it is 0 exactly when none
    of its values occurs in the column of its slot; the score of a
    2-tuple is 0 exactly when neither value occurs in its column and the
    difference does not occur in [D67]. *)
Theorem main_scores_bounds (df : DataFrame) :
  (∀ v1 v2 v3 v4 v5,
     ∃ s, score_p1_5_candidate [v1; v2; v3; v4; v5] (p1_5_freqs df) = ret s ∧
          0 ≤ s ≤ len (col_P1 df) + len (col_P2 df) + len (col_P3 df)
                  + len (col_P4 df) + len (col_P5 df) ∧
          (s = 0 ↔ (v1 ∉ col_P1 df) ∧ (v2 ∉ col_P2 df) ∧ (v3 ∉ col_P3 df) ∧
                   (v4 ∉ col_P4 df) ∧ (v5 ∉ col_P5 df))) ∧
  (∀ p6 p7,
     ∃ s, score_p6_7_candidate [p6; p7] (p6_7_freqs df) (distance_counts df)
            = ret s ∧
          0 ≤ s ≤ len (col_P6 df) + len (col_P7 df) + len (col_D67 df) ∧
          (s = 0 ↔ (p6 ∉ col_P6 df) ∧ (p7 ∉ col_P7 df) ∧
                   (p7 - p6 ∉ col_D67 df))).
Proof.
  split.
  - intros. eexists. split; [apply scores_count_occurrences_p1_5 |].
    rewrite <-!occurrences_zero.
    pose proof (occurrences_bounds v1 (col_P1 df)).
    pose proof (occurrences_bounds v2 (col_P2 df)).
    pose proof (occurrences_bounds v3 (col_P3 df)).
    pose proof (occurrences_bounds v4 (col_P4 df)).
    pose proof (occurrences_bounds v5 (col_P5 df)). lia.
  - intros. eexists. split; [apply scores_count_occurrences_p6_7 |].
    rewrite <-!occurrences_zero.
    pose proof (occurrences_bounds p6 (col_P6 df)).
    pose proof (occurrences_bounds p7 (col_P7 df)).
    pose proof (occurrences_bounds (p7 - p6) (col_D67 df)). lia.
Qed.

(** ** A unique best candidate *)

(** X24: when the scores, each within the signed 64-bit range, are those
    of the candidates and one candidate has a score strictly greater than
    the score of every other candidate, it is the most-likely
    selection. *)
Theorem select_extrema_unique_maximum `{EqDecision A} (score : A → result Z)
    (candidates : list A) (scores : list Z) (most least c : A) (s : Z) :
  comprehension score candidates = ret scores →
  Forall int64_range scores →
  select_extrema candidates scores = ret (most, least) →
  c ∈ candidates →
  score c = ret s →
  (∀ c' s', c' ∈ candidates → c' ≠ c → score c' = ret s' → s' < s) →
  most = c.
Proof.
  intros Hscores _ Hsel Hc Hs Hbest.
  destruct (select_extrema_by_score _ _ _ _ _ Hscores Hsel)
    as (s_most & s_least & Hmost & _ & Hall).
  apply select_extrema_inv in Hsel as (i & _ & _ & _ & Hi & _).
  apply list_elem_of_lookup_2 in Hi.
  destruct (Hall c s Hc Hs) as [_ Hle].
  apply dec_stable. intros Hne.
  specialize (Hbest most s_most Hi Hne Hmost). lia.
Qed.

Lemma select_extrema_unique_maximum_witness :
  ∃ scores most least,
    p1_5_scores sample_df = ret scores ∧
    select_extrema generate_p1_5_candidates scores = ret (most, least) ∧
    most = [10; 15; 17; 28; 38].
Proof.
  destruct (assembled_report_spec sample_df)
    as (scores & _ & p1 & q1 & _ & _ & _ & _ & Hscores & Hsel & _).
  eexists scores, _, _. split; [exact Hscores |]. split; [exact Hsel |].
  assert (Forall int64_range scores) as Hrange.
  { pose proof Hscores as Hvalues. vm_compute in Hvalues.
    injection Hvalues as <-. repeat constructor; unfold int64_range; lia. }
  apply (select_extrema_unique_maximum
           (λ c, score_p1_5_candidate c (p1_5_freqs sample_df))
           generate_p1_5_candidates scores _ _ [10; 15; 17; 28; 38] 7
           Hscores Hrange Hsel).
  - apply elem_of_generate_p1_5_candidates. exists 10. split; [done | lia].
  - reflexivity.
  - intros c' s' Hin Hne Hs'.
    apply elem_of_generate_p1_5_candidates in Hin as (p & -> & Hp).
    assert (p ∈ seqZ 1 22) as Hcases by (apply elem_of_seqZ; lia).
    vm_compute in Hcases.
    repeat (apply elem_of_cons in Hcases as [-> | Hcases]);
      try (by apply elem_of_nil in Hcases);
      try done; vm_compute in Hs'; injection Hs' as <-; done.
Defined.
